(** * Quantized MobileNetV2 building blocks (mobilenetv2-quantized/Untitled.ipynb)

    A shallow embedding of the notebook's Python: the quantizer policy
    classes, [ConvBlock], [InvertedResidual] and the unfinished
    [MobileNetV2] assembler.  The tensor library (torch) and the
    quantization library (brevitas) are not part of the notebook; they
    enter through the interfaces [Framework] (construction) and [Kernels]
    (forward evaluation). *)

From Stdlib Require Import ZArith Floats String List Bool Lia.
From stdpp Require Import base option list gmap strings.

Set Warnings "-inexact-float".
Local Open Scope string_scope.
Local Open Scope Z_scope.

(** ** Python values, exceptions and the error monad *)

Module QuantType.
Inductive t := BINARY | TERNARY | INT | FP.
End QuantType.

Module ScalingImplType.
Inductive t := CONST | STATS | PARAMETER | PARAMETER_FROM_STATS.
End ScalingImplType.

Module RestrictValueType.
Inductive t := FP | LOG_FP | INT | POWER_OF_TWO.
End RestrictValueType.

(** The values that occur as class attributes and keyword arguments. *)
Inductive pyval :=
| PyNone
| PyBool (b : bool)
| PyInt (z : Z)
| PyFloat (f : float)
| PyStr (s : string)
| PyTuple (zs : list Z)
| PyQuantType (v : QuantType.t)
| PyScalingImpl (v : ScalingImplType.t)
| PyRestrict (v : RestrictValueType.t).

Inductive exn :=
| AssertionError
| ValueError
| OverflowError
| TypeError
| NotImplementedError
| AttributeError (name : string)
| NameError (name : string)
| ConfigurationError (what : string)
| RuntimeError (what : string).

Inductive result (A : Type) :=
| Ok (a : A)
| Err (e : exn).
Arguments Ok {A} a.
Arguments Err {A} e.

#[global] Instance result_ret : MRet result := fun A a => Ok a.
#[global] Instance result_bind : MBind result := fun A B f m =>
  match m with
  | Ok a => f a
  | Err e => Err e
  end.

Definition is_Err {A} (r : result A) : Prop :=
  match r with
  | Ok _ => False
  | Err _ => True
  end.

(** [assert c] *)
Definition py_assert (c : bool) : result unit :=
  if c then Ok tt else Err AssertionError.

(** ** Numbers: [int] and [float] as the interpreter computes them *)

Inductive pynum :=
| PInt (z : Z)
| PFloat (f : float).

(** [float(z)] for an [int]: correctly rounded (ties to even); an [int]
    beyond the binary64 range raises OverflowError. *)
Definition float_of_int (z : Z) : result float :=
  let f := SF2Prim (binary_normalize prec emax z 0 false) in
  if is_infinity f then Err OverflowError else Ok f.

(** [inp * expand_ratio] with [inp] an [int]. *)
Definition py_mul (inp : Z) (r : pynum) : result pynum :=
  match r with
  | PInt k => Ok (PInt (inp * k))
  | PFloat f => x ← float_of_int inp; Ok (PFloat (x * f)%float)
  end.

(** The integer nearest to [m * 2^e], ties to the even one. *)
Definition round_half_even (m e : Z) : Z :=
  if 0 <=? e then m * 2 ^ e
  else
    let d := 2 ^ (- e) in
    let q := m / d in
    let r := m mod d in
    if 2 * r <? d then q
    else if d <? 2 * r then q + 1
    else if Z.even q then q else q + 1.

(** [round(x)] with one argument: an [int] is returned as it is, a [float]
    is rounded half to even; NaN raises ValueError, an infinity
    OverflowError. *)
Definition py_round (x : pynum) : result Z :=
  match x with
  | PInt z => Ok z
  | PFloat f =>
      match Prim2SF f with
      | S754_zero _ => Ok 0
      | S754_finite s m e =>
          Ok ((if s then -1 else 1) * round_half_even (Z.pos m) e)
      | S754_infinity _ => Err OverflowError
      | S754_nan => Err ValueError
      end
  end.

(** [x != 1] *)
Definition py_ne_1 (x : pynum) : bool :=
  match x with
  | PInt z => negb (z =? 1)
  | PFloat f => negb (f =? 1)%float
  end.

(** [x in [1, 2]] *)
Definition py_in_1_2 (x : Z) : bool := (x =? 1) || (x =? 2).

(** ** Module-level constants *)

Definition FIRST_LAYER_BIT_WIDTH : Z := 8.
Definition LAST_LAYER_BIT_WIDTH : Z := 8.
Definition INTERNAL_BIT_WIDTH : Z := 4.

(** ** Classes as attribute dictionaries with single inheritance *)

Inductive pyclass :=
| LibClass (name : string) (attrs : gmap string pyval)
| SubClass (name : string) (base : pyclass) (attrs : gmap string pyval).

(** Attribute lookup along the inheritance chain. *)
Fixpoint class_getattr (c : pyclass) (a : string) : option pyval :=
  match c with
  | LibClass _ d => d !! a
  | SubClass _ b d =>
      match d !! a with
      | Some v => Some v
      | None => class_getattr b a
      end
  end.

Definition class_name (c : pyclass) : string :=
  match c with
  | LibClass n _ => n
  | SubClass n _ _ => n
  end.

(** Modelled from the spec: the quantization library's resolution of a
    descriptor, which is not in the notebook.  Keyword overrides given at the
    use site are laid over the policy class (section 9, with_override). *)
Definition resolve (policy : pyclass) (overrides : gmap string pyval)
    (a : string) : option pyval :=
  match overrides !! a with
  | Some v => Some v
  | None => class_getattr policy a
  end.

(** Modelled from the spec: a quantizer is usable only with a resolved bit
    width; with a null or missing one the library raises a configuration
    error at construction. *)
Definition resolved_bit_width (policy : pyclass)
    (overrides : gmap string pyval) : result Z :=
  match resolve policy overrides "bit_width" with
  | Some (PyInt n) => Ok n
  | _ => Err (ConfigurationError "bit_width")
  end.

(** A bit-width argument: [None] or an [int]. *)
Definition py_of_bit_width (b : option Z) : pyval :=
  match b with
  | Some n => PyInt n
  | None => PyNone
  end.

(** ** Keyword arguments and instances of the library's layers *)

Module QuantConv2d.
Record kwargs := {
  in_channels : Z;
  out_channels : Z;
  kernel_size : Z;
  stride : Z;
  padding : Z;
  groups : Z;
  bias : bool;
  weight_bit_width : option Z;
  weight_quant : pyclass;
  weight_scaling_per_output_channel : bool;
  weight_scaling_impl_type : ScalingImplType.t;
  weight_scaling_stats_op : string;
  weight_narrow_range : bool;
  weight_scaling_min_val : float;
  return_quant_tensor : bool
}.

(** The [weight_] keywords, prefix stripped, as the library hands them to
    the weight quantizer. *)
Definition weight_overrides (a : kwargs) : gmap string pyval :=
  <["bit_width" := py_of_bit_width (weight_bit_width a)]>
    (<["scaling_per_output_channel" := PyBool (weight_scaling_per_output_channel a)]>
       (<["scaling_impl_type" := PyScalingImpl (weight_scaling_impl_type a)]>
          (<["scaling_stats_op" := PyStr (weight_scaling_stats_op a)]>
             (<["narrow_range" := PyBool (weight_narrow_range a)]>
                (<["scaling_min_val" := PyFloat (weight_scaling_min_val a)]> ∅))))).

(** The weight quantization of a convolution: policy class and overrides. *)
Definition weight_quantization (a : kwargs) : pyclass * gmap string pyval :=
  (weight_quant a, weight_overrides a).

Record t (Params : Type) := { args : kwargs; params : Params }.
Arguments args {Params} _.
Arguments params {Params} _.
End QuantConv2d.

Module BatchNorm2d.
Record kwargs := { num_features : Z; eps : float }.

Record t (Params : Type) := { args : kwargs; params : Params }.
Arguments args {Params} _.
Arguments params {Params} _.
End BatchNorm2d.

Module QuantReLU.
Record kwargs := {
  bit_width : option Z;
  max_val : Z;
  quant_type : QuantType.t;
  scaling_impl_type : ScalingImplType.t;
  restrict_scaling_type : RestrictValueType.t;
  scaling_per_channel : bool;
  per_channel_broadcastable_shape : Z * Z * Z * Z;
  return_quant_tensor : bool
}.

(** The keywords the library hands to the activation quantizer. *)
Definition act_overrides (a : kwargs) : gmap string pyval :=
  let shape := per_channel_broadcastable_shape a in
  <["bit_width" := py_of_bit_width (bit_width a)]>
    (<["max_val" := PyInt (max_val a)]>
       (<["quant_type" := PyQuantType (quant_type a)]>
          (<["scaling_impl_type" := PyScalingImpl (scaling_impl_type a)]>
             (<["restrict_scaling_type" := PyRestrict (restrict_scaling_type a)]>
                (<["scaling_per_channel" := PyBool (scaling_per_channel a)]>
                   (<["per_channel_broadcastable_shape"
                        := PyTuple [shape.1.1.1; shape.1.1.2; shape.1.2; shape.2]]>
                      ∅)))))).

Record t (Params : Type) := { args : kwargs; params : Params }.
Arguments args {Params} _.
Arguments params {Params} _.
End QuantReLU.

(** ** The libraries, as the notebook uses them *)

(** What construction needs from torch and brevitas: the quantizer classes
    the notebook derives from, the types of tensors and of a layer's learnable
    state, and the allocation of that state, which validates the arguments
    and may raise. *)
Class Framework := {
  Int8WeightPerTensorFloat : pyclass;
  Int8ActPerTensorFloat : pyclass;
  Uint8ActPerTensorFloat : pyclass;
  Tensor : Type;
  Params : Type;
  alloc_conv : QuantConv2d.kwargs -> result Params;
  alloc_bn : BatchNorm2d.kwargs -> result Params;
  alloc_act : QuantReLU.kwargs -> result Params
}.

(** A layer's output: a plain tensor, or a quantized tensor that carries its
    scale. *)
Inductive value {F : Framework} :=
| Plain (t : Tensor)
| QuantTensor (v : Tensor) (scale : Tensor).

(** Modelled from the spec: the primitives of section 6, which the libraries
    implement.  They run in a monad [M]; [result] executes them. *)
Class Kernels {F : Framework} (M : Type -> Type) := {
  quantized_conv : QuantConv2d.t Params -> value -> M (Tensor * Tensor)%type;
  batch_norm : BatchNorm2d.t Params -> value -> M Tensor;
  quantized_activation : QuantReLU.t Params -> value -> M (Tensor * Tensor)%type;
  tensor_add : value -> value -> M value
}.

(** Modelled from the spec: standard convolution arithmetic for the spatial
    size of a convolution's output (dilation 1), with floor division. *)
Definition conv_output_size (n kernel_size stride padding : Z) : Z :=
  (n + 2 * padding - (kernel_size - 1) - 1) / stride + 1.

Section Library.
Context {F : Framework}.

(** The four policy classes of the notebook, over the library's bases. *)
Definition CommonIntWeightPerTensorQuant : pyclass :=
  SubClass "CommonIntWeightPerTensorQuant" Int8WeightPerTensorFloat
    (<["scaling_min_val" := PyFloat 2e-16]>
       (<["bit_width" := PyNone]> ∅)).

Definition CommonIntWeightPerChannelQuant : pyclass :=
  SubClass "CommonIntWeightPerChannelQuant" CommonIntWeightPerTensorQuant
    (<["scaling_per_output_channel" := PyBool true]> ∅).

Definition CommonIntActQuant : pyclass :=
  SubClass "CommonIntActQuant" Int8ActPerTensorFloat
    (<["scaling_min_val" := PyFloat 2e-16]>
       (<["bit_width" := PyNone]>
          (<["restrict_scaling_type" := PyRestrict RestrictValueType.LOG_FP]> ∅))).

Definition CommonUintActQuant : pyclass :=
  SubClass "CommonUintActQuant" Uint8ActPerTensorFloat
    (<["scaling_min_val" := PyFloat 2e-16]>
       (<["bit_width" := PyNone]>
          (<["restrict_scaling_type" := PyRestrict RestrictValueType.LOG_FP]> ∅))).

Definition base_policies : list pyclass :=
  [CommonIntWeightPerTensorQuant; CommonIntWeightPerChannelQuant;
   CommonIntActQuant; CommonUintActQuant].

(** Modelled from the spec: the library's constructors, which are not in
    the notebook.  [QuantConv2d(...)] resolves the weight quantizer, then
    allocates the layer's state. *)
Definition new_QuantConv2d (a : QuantConv2d.kwargs)
    : result (QuantConv2d.t Params) :=
  _ ← resolved_bit_width (QuantConv2d.weight_quant a)
        (QuantConv2d.weight_overrides a);
  p ← alloc_conv a;
  mret {| QuantConv2d.args := a; QuantConv2d.params := p |}.

(** [nn.BatchNorm2d(...)] *)
Definition new_BatchNorm2d (a : BatchNorm2d.kwargs)
    : result (BatchNorm2d.t Params) :=
  p ← alloc_bn a;
  mret {| BatchNorm2d.args := a; BatchNorm2d.params := p |}.

(** Modelled from the spec: [QuantReLU(...)] resolves the activation
    quantizer likewise.  The notebook passes no [act_quant], so the library's
    unsigned activation quantizer is the policy its keywords override. *)
Definition new_QuantReLU (a : QuantReLU.kwargs)
    : result (QuantReLU.t Params) :=
  _ ← resolved_bit_width Uint8ActPerTensorFloat (QuantReLU.act_overrides a);
  p ← alloc_act a;
  mret {| QuantReLU.args := a; QuantReLU.params := p |}.

Section Calls.
Context {M : Type -> Type} {HR : MRet M} {HB : MBind M} {K : Kernels M}.

(** Calling a library layer runs its primitive; a quantized layer keeps the
    scale with the tensor only when [return_quant_tensor] is set. *)
Definition call_QuantConv2d (qc : QuantConv2d.t Params) (x : value)
    : M value :=
  p ← quantized_conv qc x;
  mret (if QuantConv2d.return_quant_tensor (QuantConv2d.args qc)
        then QuantTensor p.1 p.2 else Plain p.1).

Definition call_BatchNorm2d (bn : BatchNorm2d.t Params) (x : value)
    : M value :=
  t ← batch_norm bn x;
  mret (Plain t).

Definition call_QuantReLU (act : QuantReLU.t Params) (x : value)
    : M value :=
  p ← quantized_activation act x;
  mret (if QuantReLU.return_quant_tensor (QuantReLU.args act)
        then QuantTensor p.1 p.2 else Plain p.1).
End Calls.
End Library.

(** ** Convolutional Block *)

Module ConvBlock.
(** The keyword parameters of [__init__] that have defaults. *)
Record opts := {
  stride : Z;
  padding : option Z;
  groups : Z;
  bn_eps : float;
  activation_scaling_per_channel : bool;
  bias : bool
}.

Definition defaults : opts :=
  {| stride := 1; padding := None; groups := 1; bn_eps := 1e-5;
     activation_scaling_per_channel := false; bias := false |}.

(** [padding = (kernel_size - 1) // 2] when [padding is None]. *)
Definition resolve_padding (kernel_size : Z) (padding : option Z) : Z :=
  match padding with
  | None => (kernel_size - 1) / 2
  | Some p => p
  end.

Definition conv_kwargs (in_channels out_channels kernel_size : Z)
    (weight_bit_width : option Z) (policy : pyclass) (o : opts)
    : QuantConv2d.kwargs :=
  {| QuantConv2d.in_channels := in_channels;
     QuantConv2d.out_channels := out_channels;
     QuantConv2d.kernel_size := kernel_size;
     QuantConv2d.stride := stride o;
     QuantConv2d.padding := resolve_padding kernel_size (padding o);
     QuantConv2d.groups := groups o;
     QuantConv2d.bias := bias o;
     QuantConv2d.weight_bit_width := weight_bit_width;
     QuantConv2d.weight_quant := policy;
     QuantConv2d.weight_scaling_per_output_channel := true;
     QuantConv2d.weight_scaling_impl_type := ScalingImplType.STATS;
     QuantConv2d.weight_scaling_stats_op := "abs_max";
     QuantConv2d.weight_narrow_range := true;
     QuantConv2d.weight_scaling_min_val := 2e-16;
     QuantConv2d.return_quant_tensor := false |}.

Definition bn_kwargs (out_channels : Z) (o : opts) : BatchNorm2d.kwargs :=
  {| BatchNorm2d.num_features := out_channels;
     BatchNorm2d.eps := bn_eps o |}.

Definition activation_kwargs (out_channels : Z) (act_bit_width : option Z)
    (o : opts) : QuantReLU.kwargs :=
  {| QuantReLU.bit_width := act_bit_width;
     QuantReLU.max_val := 6;
     QuantReLU.quant_type := QuantType.INT;
     QuantReLU.scaling_impl_type := ScalingImplType.PARAMETER;
     QuantReLU.restrict_scaling_type := RestrictValueType.LOG_FP;
     QuantReLU.scaling_per_channel := activation_scaling_per_channel o;
     QuantReLU.per_channel_broadcastable_shape := (1, out_channels, 1, 1);
     QuantReLU.return_quant_tensor := true |}.

Section Defs.
Context {F : Framework}.

Record t := {
  conv : QuantConv2d.t Params;
  bn : BatchNorm2d.t Params;
  activation : QuantReLU.t Params
}.

Definition __init__ (in_channels out_channels kernel_size : Z)
    (weight_bit_width act_bit_width : option Z) (o : opts) : result t :=
  c ← new_QuantConv2d
        (conv_kwargs in_channels out_channels kernel_size weight_bit_width
           CommonIntWeightPerChannelQuant o);
  b ← new_BatchNorm2d (bn_kwargs out_channels o);
  a ← new_QuantReLU (activation_kwargs out_channels act_bit_width o);
  mret {| conv := c; bn := b; activation := a |}.

(** The spatial size the block's output has for an input of size [n]:
    only the convolution changes it. *)
Definition output_size (cb : t) (n : Z) : Z :=
  let a := QuantConv2d.args (conv cb) in
  conv_output_size n (QuantConv2d.kernel_size a) (QuantConv2d.stride a)
    (QuantConv2d.padding a).

Section Forward.
Context {M : Type -> Type} {HR : MRet M} {HB : MBind M} {K : Kernels M}.

Definition forward (self : t) (x : value) : M value :=
  x ← call_QuantConv2d (conv self) x;
  x ← call_BatchNorm2d (bn self) x;
  x ← call_QuantReLU (activation self) x;
  mret x.
End Forward.
End Defs.
Arguments t {F}.
End ConvBlock.

(** ** Inverted Residual Block *)

(** The modules an [nn.Sequential] of the notebook holds. *)
Inductive layer {F : Framework} :=
| LConvBlock (cb : ConvBlock.t)
| LQuantConv2d (qc : QuantConv2d.t Params)
| LBatchNorm2d (bn : BatchNorm2d.t Params).

Section Sequential.
Context {F : Framework} {M : Type -> Type} {HR : MRet M} {HB : MBind M}
        {K : Kernels M}.

Definition call_layer (l : layer) (x : value) : M value :=
  match l with
  | LConvBlock cb => ConvBlock.forward cb x
  | LQuantConv2d qc => call_QuantConv2d qc x
  | LBatchNorm2d bn => call_BatchNorm2d bn x
  end.

(** [nn.Sequential.forward]: the modules are applied in order. *)
Fixpoint Sequential_forward (layers : list layer) (x : value) : M value :=
  match layers with
  | [] => mret x
  | l :: rest => y ← call_layer l x; Sequential_forward rest y
  end.
End Sequential.

Module InvertedResidual.
(** The keywords of the inline pointwise projection; [groups] and
    [return_quant_tensor] are not passed and take the library's defaults. *)
Definition projection_kwargs (hidden_dim oup : Z) (policy : pyclass)
    : QuantConv2d.kwargs :=
  {| QuantConv2d.in_channels := hidden_dim;
     QuantConv2d.out_channels := oup;
     QuantConv2d.kernel_size := 1;
     QuantConv2d.stride := 1;
     QuantConv2d.padding := 0;
     QuantConv2d.groups := 1;
     QuantConv2d.bias := false;
     QuantConv2d.weight_bit_width := Some INTERNAL_BIT_WIDTH;
     QuantConv2d.weight_quant := policy;
     QuantConv2d.weight_scaling_per_output_channel := true;
     QuantConv2d.weight_scaling_impl_type := ScalingImplType.STATS;
     QuantConv2d.weight_scaling_stats_op := "abs_max";
     QuantConv2d.weight_narrow_range := true;
     QuantConv2d.weight_scaling_min_val := 2e-16;
     QuantConv2d.return_quant_tensor := false |}.

(** [nn.BatchNorm2d(oup)]: [eps] takes torch's default. *)
Definition bn_kwargs (oup : Z) : BatchNorm2d.kwargs :=
  {| BatchNorm2d.num_features := oup; BatchNorm2d.eps := 1e-5 |}.

Definition depthwise_opts (stride hidden_dim : Z) : ConvBlock.opts :=
  {| ConvBlock.stride := stride;
     ConvBlock.padding := None;
     ConvBlock.groups := hidden_dim;
     ConvBlock.bn_eps := 1e-5;
     ConvBlock.activation_scaling_per_channel := false;
     ConvBlock.bias := false |}.

Section Defs.
Context {F : Framework}.

Record t := {
  stride : Z;
  use_res_connect : bool;
  conv : list layer
}.

(** The optional expansion stage: [if expand_ratio != 1: layers.append(...)]. *)
Definition expansion (inp hidden_dim : Z) (expand_ratio : pynum)
    : result (list layer) :=
  if py_ne_1 expand_ratio then
    cb ← ConvBlock.__init__ inp hidden_dim 1 (Some INTERNAL_BIT_WIDTH)
           (Some INTERNAL_BIT_WIDTH) ConvBlock.defaults;
    mret [LConvBlock cb]
  else mret [].

(** The statements of [__init__] after the assertion. *)
Definition build (inp oup stride : Z) (expand_ratio : pynum) : result t :=
  x ← py_mul inp expand_ratio;
  hidden_dim ← py_round x;
  let use_res_connect := (stride =? 1) && (inp =? oup) in
  layers ← expansion inp hidden_dim expand_ratio;
  dw ← ConvBlock.__init__ hidden_dim hidden_dim 3 (Some INTERNAL_BIT_WIDTH)
         (Some INTERNAL_BIT_WIDTH) (depthwise_opts stride hidden_dim);
  pw ← new_QuantConv2d
         (projection_kwargs hidden_dim oup CommonIntWeightPerChannelQuant);
  bn ← new_BatchNorm2d (bn_kwargs oup);
  mret {| stride := stride;
          use_res_connect := use_res_connect;
          conv := layers ++ [LConvBlock dw; LQuantConv2d pw; LBatchNorm2d bn] |}.

Definition __init__ (inp oup stride : Z) (expand_ratio : pynum) : result t :=
  _ ← py_assert (py_in_1_2 stride);
  build inp oup stride expand_ratio.

(** [self.stride = s], an assignment made after construction. *)
Definition set_stride (self : t) (s : Z) : t :=
  {| stride := s;
     use_res_connect := use_res_connect self;
     conv := conv self |}.

Section Forward.
Context {M : Type -> Type} {HR : MRet M} {HB : MBind M} {K : Kernels M}.

Definition forward (self : t) (x : value) : M value :=
  if use_res_connect self then
    y ← Sequential_forward (conv self) x;
    tensor_add x y
  else Sequential_forward (conv self) x.
End Forward.
End Defs.
Arguments t {F}.
End InvertedResidual.

(** ** MobileNet *)

Module MobileNetV2.
(** The local variables of [__init__] when its body ends.  The body stores
    nothing on [self] and the class defines no [forward]. *)
Record locals := {
  block : string;
  input_channel : Z;
  last_channel : Z;
  inverted_residual_setting : list (list Z)
}.

Definition __init__ (num_classes : Z) (width_mult : float)
    (round_average_pool : bool) : result locals :=
  let block := "InvertedResidual" in
  let input_channel := 32 in
  let last_channel := 1280 in
  let inverted_residual_setting := [ []; [] ] in
  Ok {| block := block;
        input_channel := input_channel;
        last_channel := last_channel;
        inverted_residual_setting := inverted_residual_setting |}.


(** Attribute access on an imported module that exports the names [ns]. *)
Definition module_getattr (ns : gset string) (a : string) : result string :=
  if bool_decide (a ∈ ns) then Ok a else Err (AttributeError a).

(** [class MobileNetV2(nn.module): ...]: the base expression is evaluated,
    then the class name is bound in the notebook's globals. *)
Definition class_statement (torch_nn globals : gset string)
    : result (gset string) :=
  _ ← module_getattr torch_nn "module";
  mret ({["MobileNetV2"]} ∪ globals).

(** Running the cell: a statement that raises leaves the globals as they
    were. *)
Definition run_cell (torch_nn globals : gset string) : gset string :=
  match class_statement torch_nn globals with
  | Ok g => g
  | Err _ => globals
  end.

(** [MobileNetV2(num_classes, width_mult, round_average_pool)], evaluated
    after the cell has been run. *)
Definition construct (torch_nn globals : gset string) (num_classes : Z)
    (width_mult : float) (round_average_pool : bool) : result locals :=
  if bool_decide ("MobileNetV2" ∈ run_cell torch_nn globals)
  then __init__ num_classes width_mult round_average_pool
  else Err (NameError "MobileNetV2").

(** Classification goes through an instance; with no [forward] of its own
    the instance would fall back on the base class, which raises. *)
Definition classify {X Y : Type} (torch_nn globals : gset string)
    (num_classes : Z) (width_mult : float) (round_average_pool : bool)
    (input_batch : X) : result Y :=
  _ ← construct torch_nn globals num_classes width_mult round_average_pool;
  Err NotImplementedError.
End MobileNetV2.

(** [get_mobilenet_v2]: binds the table of output channels and returns
    [None]. *)
Definition get_mobilenet_v2_channels : list (list Z) :=
  [[32]; [16]; [24; 24]; [32; 32; 32]; [64; 64; 64; 64; 96; 96; 96];
   [160; 160; 160]; [320]].

(** ** A small instance of the interfaces, on which the model runs *)

Module Demo.
(** Tensors are single integers, layers have no state, and allocation
    always succeeds. *)
Definition framework : Framework :=
  {| Int8WeightPerTensorFloat :=
       LibClass "Int8WeightPerTensorFloat" (<["bit_width" := PyInt 8]> ∅);
     Int8ActPerTensorFloat :=
       LibClass "Int8ActPerTensorFloat" (<["bit_width" := PyInt 8]> ∅);
     Uint8ActPerTensorFloat :=
       LibClass "Uint8ActPerTensorFloat" (<["bit_width" := PyInt 8]> ∅);
     Tensor := Z;
     Params := unit;
     alloc_conv := fun _ => Ok tt;
     alloc_bn := fun _ => Ok tt;
     alloc_act := fun _ => Ok tt |}.

Definition tensor_of (v : @value framework) : Z :=
  match v with
  | Plain t => t
  | QuantTensor t _ => t
  end.

(** Executable kernels: the convolution and the normalization pass the
    number on, the activation clips it to [0, 6]. *)
Definition kernels : @Kernels framework result :=
  {| quantized_conv := fun _ x => Ok (tensor_of x, 1);
     batch_norm := fun _ x => Ok (tensor_of x);
     quantized_activation := fun _ x => Ok (Z.min 6 (Z.max 0 (tensor_of x)), 1);
     tensor_add := fun x y => Ok (@Plain framework (tensor_of x + tensor_of y)) |}.

(** The names of [torch.nn] the notebook uses. *)
Definition torch_nn : gset string :=
  {["Module"; "BatchNorm2d"; "Sequential"]}.
End Demo.

(** ** What the stages of a block are called *)

Section Stages.
Context {F : Framework}.

(** A convolution block working at the internal bit width, for weights and
    activations alike. *)
Definition at_internal_bit_width (cb : ConvBlock.t) : Prop :=
  QuantConv2d.weight_bit_width (QuantConv2d.args (ConvBlock.conv cb))
    = Some INTERNAL_BIT_WIDTH
  ∧ QuantReLU.bit_width (QuantReLU.args (ConvBlock.activation cb))
    = Some INTERNAL_BIT_WIDTH.

(** A pointwise (1x1) expansion from [inp] to [hidden_dim] channels. *)
Definition pointwise_expansion (cb : ConvBlock.t) (inp hidden_dim : Z)
    : Prop :=
  let a := QuantConv2d.args (ConvBlock.conv cb) in
  QuantConv2d.in_channels a = inp
  ∧ QuantConv2d.out_channels a = hidden_dim
  ∧ QuantConv2d.kernel_size a = 1
  ∧ at_internal_bit_width cb.

(** A depthwise 3x3 convolution block over [hidden_dim] channels. *)
Definition depthwise (cb : ConvBlock.t) (hidden_dim stride : Z) : Prop :=
  let a := QuantConv2d.args (ConvBlock.conv cb) in
  QuantConv2d.in_channels a = hidden_dim
  ∧ QuantConv2d.out_channels a = hidden_dim
  ∧ QuantConv2d.kernel_size a = 3
  ∧ QuantConv2d.groups a = hidden_dim
  ∧ QuantConv2d.stride a = stride
  ∧ at_internal_bit_width cb.

(** A pointwise projection from [hidden_dim] to [oup] channels with a
    quantized weight at the internal bit width. *)
Definition pointwise_projection (qc : QuantConv2d.t Params)
    (hidden_dim oup : Z) : Prop :=
  let a := QuantConv2d.args qc in
  QuantConv2d.in_channels a = hidden_dim
  ∧ QuantConv2d.out_channels a = oup
  ∧ QuantConv2d.kernel_size a = 1
  ∧ QuantConv2d.stride a = 1
  ∧ QuantConv2d.weight_quant a = CommonIntWeightPerChannelQuant
  ∧ QuantConv2d.weight_bit_width a = Some INTERNAL_BIT_WIDTH
  ∧ QuantConv2d.return_quant_tensor a = false.
End Stages.

(** ** Shapes through a block *)

Section Shapes.
Context {F : Framework}.

(** Modelled from the spec: channel continuity (sections 3 and 8).  A
    convolution accepts an input of [in_channels] channels and returns
    [out_channels]; a batch normalization accepts [num_features] channels
    and keeps them; an activation keeps the channels it is given. *)
Definition conv_channels (a : QuantConv2d.kwargs) (c : Z) : option Z :=
  if c =? QuantConv2d.in_channels a
  then Some (QuantConv2d.out_channels a) else None.

Definition bn_channels (a : BatchNorm2d.kwargs) (c : Z) : option Z :=
  if c =? BatchNorm2d.num_features a then Some c else None.

Definition ConvBlock_channels (cb : ConvBlock.t) (c : Z) : option Z :=
  c1 ← conv_channels (QuantConv2d.args (ConvBlock.conv cb)) c;
  bn_channels (BatchNorm2d.args (ConvBlock.bn cb)) c1.

Definition layer_channels (l : layer) (c : Z) : option Z :=
  match l with
  | LConvBlock cb => ConvBlock_channels cb c
  | LQuantConv2d qc => conv_channels (QuantConv2d.args qc) c
  | LBatchNorm2d bn => bn_channels (BatchNorm2d.args bn) c
  end.

(** The channels a sequence returns for an input of [c] channels, when
    every layer accepts what the one before it returns. *)
Fixpoint channels_through (layers : list layer) (c : Z) : option Z :=
  match layers with
  | [] => Some c
  | l :: rest => c' ← layer_channels l c; channels_through rest c'
  end.

(** The spatial size a layer returns for an input of size [n]: only
    convolutions change it. *)
Definition layer_size (l : layer) (n : Z) : Z :=
  match l with
  | LConvBlock cb => ConvBlock.output_size cb n
  | LQuantConv2d qc =>
      let a := QuantConv2d.args qc in
      conv_output_size n (QuantConv2d.kernel_size a) (QuantConv2d.stride a)
        (QuantConv2d.padding a)
  | LBatchNorm2d _ => n
  end.

Fixpoint size_through (layers : list layer) (n : Z) : Z :=
  match layers with
  | [] => n
  | l :: rest => size_through rest (layer_size l n)
  end.

(** The kernels [K] with another addition. *)
Definition with_tensor_add {M : Type -> Type} (K : Kernels M)
    (add : value -> value -> M value) : Kernels M :=
  {| quantized_conv := quantized_conv;
     batch_norm := batch_norm;
     quantized_activation := quantized_activation;
     tensor_add := add |}.
End Shapes.

(** * Properties *)

(** ** Inversion of successful constructions *)

Lemma bind_Ok {A B} (m : result A) (f : A → result B) (b : B) :
  m ≫= f = Ok b → ∃ a, m = Ok a ∧ f a = Ok b.
Proof. destruct m as [a|e]; cbn; [eauto | discriminate]. Qed.

Lemma bind_Err {A B} (m : result A) (f : A → result B) :
  is_Err m → is_Err (m ≫= f).
Proof. destruct m; cbn; tauto. Qed.

Lemma bind_Err_r {A B} (m : result A) (f : A → result B) :
  (∀ a, is_Err (f a)) → is_Err (m ≫= f).
Proof. intros H. destruct m; cbn; [apply H | exact I]. Qed.

Lemma is_Err_not_Ok {A} (r : result A) (a : A) : is_Err r → r ≠ Ok a.
Proof. destruct r; cbn; [tauto | discriminate]. Qed.

Ltac inv_bind H :=
  repeat match type of H with
         | _ ≫= _ = Ok _ =>
             let a := fresh "v" in
             let E := fresh "E" in
             apply bind_Ok in H as (a & E & H)
         end.

Section Inversion.
Context {F : Framework}.

Lemma new_QuantConv2d_Ok a qc :
  new_QuantConv2d a = Ok qc →
  QuantConv2d.args qc = a
  ∧ ∃ n, resolved_bit_width (QuantConv2d.weight_quant a)
           (QuantConv2d.weight_overrides a) = Ok n.
Proof.
  unfold new_QuantConv2d. intros H. inv_bind H.
  injection H as <-. eauto.
Qed.

Lemma new_BatchNorm2d_Ok a bn :
  new_BatchNorm2d a = Ok bn → BatchNorm2d.args bn = a.
Proof.
  unfold new_BatchNorm2d. intros H. inv_bind H. by injection H as <-.
Qed.

Lemma new_QuantReLU_Ok a act :
  new_QuantReLU a = Ok act → QuantReLU.args act = a.
Proof.
  unfold new_QuantReLU. intros H. inv_bind H. by injection H as <-.
Qed.

Lemma ConvBlock_init_Ok ic oc k wb ab o (cb : ConvBlock.t) :
  ConvBlock.__init__ ic oc k wb ab o = Ok cb →
  QuantConv2d.args (ConvBlock.conv cb)
    = ConvBlock.conv_kwargs ic oc k wb CommonIntWeightPerChannelQuant o
  ∧ BatchNorm2d.args (ConvBlock.bn cb) = ConvBlock.bn_kwargs oc o
  ∧ QuantReLU.args (ConvBlock.activation cb)
    = ConvBlock.activation_kwargs oc ab o.
Proof.
  unfold ConvBlock.__init__. intros H. inv_bind H.
  injection H as <-. cbn.
  repeat split;
    eauto using new_BatchNorm2d_Ok, new_QuantReLU_Ok.
  by apply new_QuantConv2d_Ok in E as [-> _].
Qed.

Lemma expansion_Ok inp hidden_dim er ls :
  InvertedResidual.expansion inp hidden_dim er = Ok ls →
  if py_ne_1 er
  then ∃ ex,
      ConvBlock.__init__ inp hidden_dim 1 (Some INTERNAL_BIT_WIDTH)
        (Some INTERNAL_BIT_WIDTH) ConvBlock.defaults = Ok ex
      ∧ ls = [LConvBlock ex]
  else ls = [].
Proof.
  unfold InvertedResidual.expansion. destruct (py_ne_1 er); intros H.
  - inv_bind H. injection H as <-. eauto.
  - by injection H as <-.
Qed.

Lemma build_Ok inp oup stride er (b : InvertedResidual.t) :
  InvertedResidual.build inp oup stride er = Ok b →
  ∃ x hidden_dim ls dw pw bn,
    py_mul inp er = Ok x
    ∧ py_round x = Ok hidden_dim
    ∧ InvertedResidual.expansion inp hidden_dim er = Ok ls
    ∧ ConvBlock.__init__ hidden_dim hidden_dim 3 (Some INTERNAL_BIT_WIDTH)
        (Some INTERNAL_BIT_WIDTH)
        (InvertedResidual.depthwise_opts stride hidden_dim) = Ok dw
    ∧ new_QuantConv2d
        (InvertedResidual.projection_kwargs hidden_dim oup
           CommonIntWeightPerChannelQuant) = Ok pw
    ∧ new_BatchNorm2d (InvertedResidual.bn_kwargs oup) = Ok bn
    ∧ b = {| InvertedResidual.stride := stride;
             InvertedResidual.use_res_connect := (stride =? 1) && (inp =? oup);
             InvertedResidual.conv :=
               ls ++ [LConvBlock dw; LQuantConv2d pw; LBatchNorm2d bn] |}.
Proof.
  unfold InvertedResidual.build. intros H. inv_bind H.
  injection H as <-. do 6 eexists.
  repeat (split; [eassumption |]). reflexivity.
Qed.

Lemma py_in_1_2_spec stride :
  py_in_1_2 stride = true ↔ stride = 1 ∨ stride = 2.
Proof. unfold py_in_1_2. rewrite orb_true_iff, !Z.eqb_eq. tauto. Qed.

Lemma init_Ok inp oup stride er (b : InvertedResidual.t) :
  InvertedResidual.__init__ inp oup stride er = Ok b →
  (stride = 1 ∨ stride = 2)
  ∧ InvertedResidual.build inp oup stride er = Ok b.
Proof.
  unfold InvertedResidual.__init__, py_assert. intros H.
  destruct (py_in_1_2 stride) eqn:Hs; cbn in H; [| discriminate].
  split; [by apply py_in_1_2_spec | done].
Qed.
End Inversion.

(** ** The residual rule *)

(** C1.  A constructed inverted residual block holds the flag
    [stride == 1 and inp == oup]; [forward] reads the stored flag only, so a
    later assignment to [self.stride] changes nothing; and [forward] returns
    [x + conv(x)] when stride is 1 and the channel counts agree, [conv(x)]
    alone otherwise. *)
Theorem residual_rule {F : Framework} {M : Type → Type}
    {HR : MRet M} {HB : MBind M} {K : Kernels M}
    (inp oup stride : Z) (expand_ratio : pynum) (b : InvertedResidual.t) :
  InvertedResidual.__init__ inp oup stride expand_ratio = Ok b →
  InvertedResidual.use_res_connect b = (stride =? 1) && (inp =? oup)
  ∧ (∀ s x, InvertedResidual.forward (InvertedResidual.set_stride b s) x
            = InvertedResidual.forward b x)
  ∧ (stride = 1 ∧ inp = oup →
     ∀ x, InvertedResidual.forward b x
          = (y ← Sequential_forward (InvertedResidual.conv b) x; tensor_add x y))
  ∧ (¬ (stride = 1 ∧ inp = oup) →
     ∀ x, InvertedResidual.forward b x
          = Sequential_forward (InvertedResidual.conv b) x).
Proof.
  intros H. apply init_Ok in H as [_ H].
  apply build_Ok in H as (x & h & ls & dw & pw & bn & _ & _ & _ & _ & _ & _ & ->).
  cbn [InvertedResidual.use_res_connect]. split; [reflexivity |].
  split; [reflexivity |]. split.
  - intros [-> ->] y. unfold InvertedResidual.forward.
    cbn [InvertedResidual.use_res_connect InvertedResidual.conv].
    by rewrite !Z.eqb_refl.
  - intros Hne y. unfold InvertedResidual.forward.
    cbn [InvertedResidual.use_res_connect InvertedResidual.conv].
    destruct (stride =? 1) eqn:E1; [| reflexivity].
    destruct (inp =? oup) eqn:E2; [| reflexivity].
    apply Z.eqb_eq in E1, E2. tauto.
Qed.

Lemma residual_rule_witness :
  ∃ b : @InvertedResidual.t Demo.framework,
    InvertedResidual.__init__ 16 16 1 (PInt 6) = Ok b
    ∧ InvertedResidual.use_res_connect b = true
    ∧ ∀ x, InvertedResidual.forward (K := Demo.kernels) b x
           = (y ← Sequential_forward (K := Demo.kernels)
                    (InvertedResidual.conv b) x;
              tensor_add (Kernels := Demo.kernels) x y).
Proof.
  destruct (InvertedResidual.__init__ (F := Demo.framework) 16 16 1 (PInt 6))
    as [b|e] eqn:E; [| by vm_compute in E].
  exists b. split; [reflexivity |].
  destruct (residual_rule (K := Demo.kernels) 16 16 1 (PInt 6) b E)
    as (Hflag & _ & Hres & _).
  split; [exact Hflag | apply Hres; split; reflexivity].
Defined.

(** ** The stride assertion *)

(** C6.  A stride other than 1 or 2 makes [__init__] raise the assertion's
    error, so no block exists on which [forward] could be called; for stride
    1 or 2 the assertion passes and [__init__] is the rest of its body. *)
Theorem stride_assertion {F : Framework} (inp oup stride : Z)
    (expand_ratio : pynum) :
  (stride ≠ 1 ∧ stride ≠ 2 →
   InvertedResidual.__init__ inp oup stride expand_ratio = Err AssertionError
   ∧ ∀ b, InvertedResidual.__init__ inp oup stride expand_ratio ≠ Ok b)
  ∧ (stride = 1 ∨ stride = 2 →
     py_assert (py_in_1_2 stride) = Ok tt
     ∧ InvertedResidual.__init__ inp oup stride expand_ratio
       = InvertedResidual.build inp oup stride expand_ratio).
Proof.
  unfold InvertedResidual.__init__. split.
  - intros [H1 H2].
    assert (py_in_1_2 stride = false) as ->.
    { apply not_true_is_false. rewrite py_in_1_2_spec. tauto. }
    cbn. split; [reflexivity | discriminate].
  - intros H. apply py_in_1_2_spec in H as ->. by cbn.
Qed.

Example stride_3_rejected :
  InvertedResidual.__init__ (F := Demo.framework) 16 16 3 (PInt 6)
  = Err AssertionError.
Proof. reflexivity. Qed.

Example stride_2_accepted :
  ∃ b, InvertedResidual.__init__ (F := Demo.framework) 16 24 2 (PInt 6) = Ok b
       ∧ InvertedResidual.use_res_connect b = false.
Proof. eexists. split; [vm_compute; reflexivity | reflexivity]. Qed.

(** ** The stages of an inverted residual block *)

(** C2.  In a constructed block, with [hidden_dim = int(round(inp *
    expand_ratio))], the stages are: a pointwise expansion block
    [inp -> hidden_dim], there exactly when [expand_ratio != 1]; a depthwise
    3x3 block with [groups = hidden_dim] at the given stride; a pointwise
    projection [hidden_dim -> oup] with a quantized weight; and a batch
    normalization over [oup] features that ends the sequence, so no
    activation follows the projection.  Every stage is at the internal bit
    width. *)
Theorem stage_sequence {F : Framework} (inp oup stride : Z)
    (expand_ratio : pynum) (b : InvertedResidual.t) :
  InvertedResidual.__init__ inp oup stride expand_ratio = Ok b →
  ∃ x hidden_dim dw pw bn,
    py_mul inp expand_ratio = Ok x
    ∧ py_round x = Ok hidden_dim
    ∧ (py_ne_1 expand_ratio = true →
       ∃ ex, InvertedResidual.conv b
             = [LConvBlock ex; LConvBlock dw; LQuantConv2d pw; LBatchNorm2d bn]
             ∧ pointwise_expansion ex inp hidden_dim)
    ∧ (py_ne_1 expand_ratio = false →
       InvertedResidual.conv b
       = [LConvBlock dw; LQuantConv2d pw; LBatchNorm2d bn])
    ∧ depthwise dw hidden_dim stride
    ∧ pointwise_projection pw hidden_dim oup
    ∧ BatchNorm2d.num_features (BatchNorm2d.args bn) = oup.
Proof.
  intros H. apply init_Ok in H as [_ H].
  apply build_Ok in H as (x & h & ls & dw & pw & bn & Hx & Hh & Hls & Hdw & Hpw & Hbn & ->).
  exists x, h, dw, pw, bn.
  apply expansion_Ok in Hls.
  apply ConvBlock_init_Ok in Hdw as (Hc & _ & Ha).
  apply new_QuantConv2d_Ok in Hpw as [Hpw _].
  apply new_BatchNorm2d_Ok in Hbn.
  split; [done |]. split; [done |].
  cbn [InvertedResidual.conv]. split; [| split].
  - intros Hne. rewrite Hne in Hls. destruct Hls as (ex & Hex & ->).
    exists ex. split; [reflexivity |].
    apply ConvBlock_init_Ok in Hex as (Hc' & _ & Ha').
    unfold pointwise_expansion, at_internal_bit_width.
    rewrite Hc', Ha'. cbn. done.
  - intros Hne. rewrite Hne in Hls. by subst ls.
  - unfold depthwise, pointwise_projection, at_internal_bit_width.
    rewrite Hc, Ha, Hpw, Hbn. cbn. done.
Qed.

Lemma stage_sequence_witness :
  ∃ (b : @InvertedResidual.t Demo.framework) ex dw pw bn,
    InvertedResidual.__init__ 16 24 2 (PFloat 0.5) = Ok b
    ∧ InvertedResidual.conv b
      = [LConvBlock ex; LConvBlock dw; LQuantConv2d pw; LBatchNorm2d bn]
    ∧ pointwise_expansion ex 16 8
    ∧ depthwise dw 8 2
    ∧ pointwise_projection pw 8 24.
Proof.
  destruct (InvertedResidual.__init__ (F := Demo.framework) 16 24 2 (PFloat 0.5))
    as [b|e] eqn:E; [| by vm_compute in E].
  destruct (stage_sequence 16 24 2 (PFloat 0.5) b E)
    as (x & h & dw & pw & bn & Hx & Hh & Hex & _ & Hdw & Hpw & _).
  destruct (Hex eq_refl) as (ex & Hconv & Hpe).
  assert (h = 8) as ->.
  { vm_compute in Hx. injection Hx as <-. vm_compute in Hh. congruence. }
  exists b, ex, dw, pw, bn. done.
Defined.

Example hidden_dim_half_to_even :
  (x ← py_mul 5 (PFloat 0.5); py_round x) = Ok 2
  ∧ (x ← py_mul 7 (PFloat 0.5); py_round x) = Ok 4
  ∧ (x ← py_mul 16 (PInt 6); py_round x) = Ok 96.
Proof. repeat split; vm_compute; reflexivity. Qed.

(** ** The convolution block *)

Section ConvBlockFacts.
Context {F : Framework}.

Lemma weight_overrides_bit_width a :
  QuantConv2d.weight_overrides a !! "bit_width"
  = Some (py_of_bit_width (QuantConv2d.weight_bit_width a)).
Proof. reflexivity. Qed.

Lemma act_overrides_bit_width a :
  QuantReLU.act_overrides a !! "bit_width"
  = Some (py_of_bit_width (QuantReLU.bit_width a)).
Proof. reflexivity. Qed.

Lemma resolved_bit_width_null policy overrides :
  overrides !! "bit_width" = Some PyNone →
  is_Err (resolved_bit_width policy overrides).
Proof. unfold resolved_bit_width, resolve. by intros ->. Qed.

Lemma new_QuantConv2d_null a :
  QuantConv2d.weight_bit_width a = None → is_Err (new_QuantConv2d a).
Proof.
  intros H. unfold new_QuantConv2d. apply bind_Err.
  apply resolved_bit_width_null. by rewrite weight_overrides_bit_width, H.
Qed.

Lemma new_QuantReLU_null a :
  QuantReLU.bit_width a = None → is_Err (new_QuantReLU a).
Proof.
  intros H. unfold new_QuantReLU. apply bind_Err.
  apply resolved_bit_width_null. by rewrite act_overrides_bit_width, H.
Qed.
End ConvBlockFacts.

(** C3.  A constructed convolution block evaluates, in this order, its
    convolution, its batch normalization and its activation, each on the
    output of the one before: the convolution's tensor (its scale dropped,
    [return_quant_tensor] not being set on it) is what the normalization
    receives, and the normalized tensor is what the activation receives.
    The convolution's weight quantizer is the per-channel policy at
    [weight_bit_width], scaled per output channel from the absolute maximum,
    narrow range on; the normalization is the plain one over [out_channels];
    the activation clips at 6, quantizes to [act_bit_width], scales per
    channel as the flag says, and returns the tensor together with its
    scale. *)
Theorem ConvBlock_pipeline {F : Framework} {M : Type → Type}
    {HR : MRet M} {HB : MBind M} {K : Kernels M} (Kr : Kernels result)
    (in_channels out_channels kernel_size : Z)
    (weight_bit_width act_bit_width : option Z) (o : ConvBlock.opts)
    (cb : ConvBlock.t) :
  ConvBlock.__init__ in_channels out_channels kernel_size weight_bit_width
    act_bit_width o = Ok cb →
  let ca := QuantConv2d.args (ConvBlock.conv cb) in
  let aa := QuantReLU.args (ConvBlock.activation cb) in
  (QuantConv2d.weight_quant ca = CommonIntWeightPerChannelQuant
   ∧ class_getattr (QuantConv2d.weight_quant ca) "scaling_per_output_channel"
     = Some (PyBool true)
   ∧ QuantConv2d.weight_bit_width ca = weight_bit_width
   ∧ QuantConv2d.weight_scaling_per_output_channel ca = true
   ∧ QuantConv2d.weight_scaling_impl_type ca = ScalingImplType.STATS
   ∧ QuantConv2d.weight_scaling_stats_op ca = "abs_max"
   ∧ QuantConv2d.weight_narrow_range ca = true)
  ∧ BatchNorm2d.args (ConvBlock.bn cb)
    = {| BatchNorm2d.num_features := out_channels;
         BatchNorm2d.eps := ConvBlock.bn_eps o |}
  ∧ (QuantReLU.max_val aa = 6
     ∧ QuantReLU.bit_width aa = act_bit_width
     ∧ QuantReLU.quant_type aa = QuantType.INT
     ∧ QuantReLU.scaling_per_channel aa
       = ConvBlock.activation_scaling_per_channel o
     ∧ QuantReLU.return_quant_tensor aa = true)
  ∧ (∀ x, ConvBlock.forward cb x
          = (x1 ← call_QuantConv2d (ConvBlock.conv cb) x;
             x2 ← call_BatchNorm2d (ConvBlock.bn cb) x1;
             x3 ← call_QuantReLU (ConvBlock.activation cb) x2;
             mret x3))
  ∧ (∀ x, call_QuantConv2d (ConvBlock.conv cb) x
          = (p ← quantized_conv (ConvBlock.conv cb) x; mret (Plain p.1)))
  ∧ (∀ x, call_BatchNorm2d (ConvBlock.bn cb) x
          = (t ← batch_norm (ConvBlock.bn cb) x; mret (Plain t)))
  ∧ (∀ x, call_QuantReLU (ConvBlock.activation cb) x
          = (p ← quantized_activation (ConvBlock.activation cb) x;
             mret (QuantTensor p.1 p.2)))
  ∧ (∀ x, ConvBlock.forward (K := Kr) cb x
          = (p ← quantized_conv (Kernels := Kr) (ConvBlock.conv cb) x;
             t ← batch_norm (Kernels := Kr) (ConvBlock.bn cb) (Plain p.1);
             q ← quantized_activation (Kernels := Kr) (ConvBlock.activation cb)
                   (Plain t);
             Ok (QuantTensor q.1 q.2))).
Proof.
  intros H ca aa. subst ca aa.
  apply ConvBlock_init_Ok in H as (Hc & Hb & Ha).
  split_and!; try (rewrite ?Hc, ?Hb, ?Ha; reflexivity).
  - intros x. unfold call_QuantConv2d. by rewrite Hc.
  - intros x. unfold call_QuantReLU. by rewrite Ha.
  - intros x. unfold ConvBlock.forward, call_QuantConv2d, call_BatchNorm2d,
      call_QuantReLU. rewrite Hc, Ha. cbn.
    destruct (quantized_conv _ x) as [p | e]; cbn; [| reflexivity].
    destruct (batch_norm _ (Plain p.1)) as [t | e]; cbn; [| reflexivity].
    by destruct (quantized_activation _ (Plain t)) as [q | e].
Qed.

Lemma ConvBlock_pipeline_witness :
  ∃ cb : @ConvBlock.t Demo.framework,
    ConvBlock.__init__ 3 32 3 (Some 8) (Some 8) ConvBlock.defaults = Ok cb
    ∧ QuantReLU.max_val (QuantReLU.args (ConvBlock.activation cb)) = 6
    ∧ ConvBlock.forward (K := Demo.kernels) cb (@Plain Demo.framework 9)
      = (p ← quantized_conv (Kernels := Demo.kernels) (ConvBlock.conv cb)
               (@Plain Demo.framework 9);
         t ← batch_norm (Kernels := Demo.kernels) (ConvBlock.bn cb)
               (Plain p.1);
         q ← quantized_activation (Kernels := Demo.kernels)
               (ConvBlock.activation cb) (Plain t);
         Ok (QuantTensor q.1 q.2))
    ∧ ConvBlock.forward (K := Demo.kernels) cb (@Plain Demo.framework 9)
      = Ok (@QuantTensor Demo.framework 6 1).
Proof.
  destruct (ConvBlock.__init__ (F := Demo.framework) 3 32 3 (Some 8) (Some 8)
              ConvBlock.defaults) as [cb|e] eqn:E; [| by vm_compute in E].
  destruct (ConvBlock_pipeline (K := Demo.kernels) Demo.kernels 3 32 3 (Some 8)
              (Some 8) ConvBlock.defaults cb E)
    as (_ & _ & (Hmax & _) & _ & _ & _ & _ & Hrun).
  exists cb. split; [reflexivity |]. split; [exact Hmax |].
  split; [apply Hrun |].
  clear Hmax Hrun. vm_compute in E. injection E as <-. reflexivity.
Defined.

(** ** The base policies *)

(** C4.  Each of the four policy classes has the scale floor 2e-16, which is
    positive and below one, and a null bit width.  Used with no bit width
    given, or with a null one, a policy does not resolve; a convolution block
    whose weight or activation bit width is null is not constructed, so it
    cannot be evaluated. *)
Theorem base_policies_unresolved {F : Framework} :
  Forall (λ P, class_getattr P "scaling_min_val" = Some (PyFloat 2e-16)
              ∧ class_getattr P "bit_width" = Some PyNone) base_policies
  ∧ ((0 <? 2e-16)%float = true ∧ (2e-16 <? 1)%float = true)
  ∧ (∀ P overrides,
       P ∈ base_policies →
       overrides !! "bit_width" = None ∨ overrides !! "bit_width" = Some PyNone →
       is_Err (resolved_bit_width P overrides))
  ∧ (∀ ic oc k ab o cb,
       is_Err (ConvBlock.__init__ ic oc k None ab o)
       ∧ ConvBlock.__init__ ic oc k None ab o ≠ Ok cb)
  ∧ (∀ ic oc k wb o cb,
       is_Err (ConvBlock.__init__ ic oc k wb None o)
       ∧ ConvBlock.__init__ ic oc k wb None o ≠ Ok cb).
Proof.
  assert (Hattrs : Forall (λ P, class_getattr P "scaling_min_val" = Some (PyFloat 2e-16)
              ∧ class_getattr P "bit_width" = Some PyNone) base_policies).
  { unfold base_policies. repeat constructor. }
  split; [exact Hattrs |]. split; [split; reflexivity |]. split; [| split].
  - intros P ov HP Hov.
    rewrite Forall_forall in Hattrs. destruct (Hattrs P HP) as [_ Hbw].
    unfold resolved_bit_width, resolve.
    destruct Hov as [-> | ->]; [rewrite Hbw |]; exact I.
  - intros ic oc k ab o cb.
    assert (is_Err (ConvBlock.__init__ ic oc k None ab o)) as H.
    { unfold ConvBlock.__init__. apply bind_Err. by apply new_QuantConv2d_null. }
    split; [exact H | by apply is_Err_not_Ok].
  - intros ic oc k wb o cb.
    assert (is_Err (ConvBlock.__init__ ic oc k wb None o)) as H.
    { unfold ConvBlock.__init__. do 2 (apply bind_Err_r; intros ?).
      apply bind_Err. by apply new_QuantReLU_null. }
    split; [exact H | by apply is_Err_not_Ok].
Qed.

Example null_weight_bit_width_rejected :
  ConvBlock.__init__ (F := Demo.framework) 3 32 3 None (Some 8) ConvBlock.defaults
  = Err (ConfigurationError "bit_width").
Proof. vm_compute. reflexivity. Qed.

(** ** Default padding and the spatial size *)

Lemma same_size_odd (n k : Z) :
  Z.odd k = true → conv_output_size n k 1 ((k - 1) / 2) = n.
Proof.
  intros Hk. unfold conv_output_size.
  rewrite Zodd_bool_iff in Hk. apply Zodd_ex in Hk as [j ->].
  replace (2 * j + 1 - 1) with (j * 2) by lia.
  rewrite Z.div_mul by lia. rewrite Z.div_1_r. lia.
Qed.





(** ** The projection's weight quantization *)

(** C10.  In a constructed inverted residual block the projection is a
    member of the stage sequence, and every convolution block of the
    sequence quantizes its weight as the projection does: same policy class
    and same keywords (bit width, per-output-channel scaling, statistic,
    narrow range, scale floor 2e-16).  The shared quantization is that of any
    convolution block at the internal bit width. *)
Theorem projection_weight_quantization {F : Framework} (inp oup stride : Z)
    (expand_ratio : pynum) (b : InvertedResidual.t) :
  InvertedResidual.__init__ inp oup stride expand_ratio = Ok b →
  ∃ pw,
    LQuantConv2d pw ∈ InvertedResidual.conv b
    ∧ (∀ cb, LConvBlock cb ∈ InvertedResidual.conv b →
         QuantConv2d.weight_quantization (QuantConv2d.args (ConvBlock.conv cb))
         = QuantConv2d.weight_quantization (QuantConv2d.args pw))
    ∧ (∀ ic oc k o,
         QuantConv2d.weight_quantization (QuantConv2d.args pw)
         = QuantConv2d.weight_quantization
             (ConvBlock.conv_kwargs ic oc k (Some INTERNAL_BIT_WIDTH)
                CommonIntWeightPerChannelQuant o))
    ∧ QuantConv2d.weight_scaling_min_val (QuantConv2d.args pw) = 2e-16%float.
Proof.
  intros H. apply init_Ok in H as [_ H].
  apply build_Ok in H as (x & h & ls & dw & pw & bn & _ & _ & Hls & Hdw & Hpw & _ & ->).
  apply expansion_Ok in Hls.
  apply ConvBlock_init_Ok in Hdw as (Hdw & _ & _).
  apply new_QuantConv2d_Ok in Hpw as [Hpw _].
  exists pw. cbn [InvertedResidual.conv]. split; [set_solver |].
  rewrite Hpw. split; [| split; [intros; reflexivity | reflexivity]].
  intros cb Hcb.
  assert (QuantConv2d.weight_quantization (QuantConv2d.args (ConvBlock.conv cb))
          = QuantConv2d.weight_quantization
              (InvertedResidual.projection_kwargs h oup
                 CommonIntWeightPerChannelQuant)) as Heq.
  { apply elem_of_app in Hcb as [Hcb | Hcb].
    - destruct (py_ne_1 expand_ratio).
      + destruct Hls as (ex & Hex & ->).
        apply list_elem_of_singleton in Hcb. injection Hcb as ->.
        apply ConvBlock_init_Ok in Hex as (-> & _ & _). reflexivity.
      + subst ls. by apply elem_of_nil in Hcb.
    - apply elem_of_cons in Hcb as [Hcb | Hcb].
      + injection Hcb as ->. rewrite Hdw. reflexivity.
      + repeat (apply elem_of_cons in Hcb as [Hcb | Hcb]; [discriminate |]).
        by apply elem_of_nil in Hcb. }
  exact Heq.
Qed.

Lemma projection_weight_quantization_witness :
  ∃ (b : @InvertedResidual.t Demo.framework) pw,
    InvertedResidual.__init__ 16 16 1 (PInt 6) = Ok b
    ∧ LQuantConv2d pw ∈ InvertedResidual.conv b
    ∧ ∀ cb, LConvBlock cb ∈ InvertedResidual.conv b →
        QuantConv2d.weight_quantization (QuantConv2d.args (ConvBlock.conv cb))
        = QuantConv2d.weight_quantization (QuantConv2d.args pw).
Proof.
  destruct (InvertedResidual.__init__ (F := Demo.framework) 16 16 1 (PInt 6))
    as [b|e] eqn:E; [| by vm_compute in E].
  destruct (projection_weight_quantization 16 16 1 (PInt 6) b E)
    as (pw & Hin & Hall & _).
  exists b, pw. split; [reflexivity |]. split; [exact Hin |].
  exact Hall.
Defined.

(** ** The network assembler *)




(** C9.  [torch.nn] exports no name [module], so the class statement raises
    AttributeError and binds nothing; every later call
    [MobileNetV2(num_classes, width_mult, round_average_pool)] raises, no
    instance is ever made, and classification is out of reach. *)
Theorem MobileNetV2_never_constructed (torch_nn globals : gset string) :
  "module" ∉ torch_nn →
  "MobileNetV2" ∉ globals →
  MobileNetV2.class_statement torch_nn globals = Err (AttributeError "module")
  ∧ MobileNetV2.run_cell torch_nn globals = globals
  ∧ ∀ num_classes width_mult round_average_pool,
      MobileNetV2.construct torch_nn globals num_classes width_mult
        round_average_pool = Err (NameError "MobileNetV2")
      ∧ (∀ l, MobileNetV2.construct torch_nn globals num_classes width_mult
                round_average_pool ≠ Ok l)
      ∧ ∀ (X Y : Type) (input_batch : X),
          MobileNetV2.classify (Y := Y) torch_nn globals num_classes width_mult
            round_average_pool input_batch = Err (NameError "MobileNetV2").
Proof.
  intros Hnn Hg.
  assert (MobileNetV2.class_statement torch_nn globals
          = Err (AttributeError "module")) as Hcls.
  { unfold MobileNetV2.class_statement, MobileNetV2.module_getattr.
    by rewrite bool_decide_eq_false_2. }
  assert (MobileNetV2.run_cell torch_nn globals = globals) as Hrun.
  { unfold MobileNetV2.run_cell. by rewrite Hcls. }
  split; [exact Hcls |]. split; [exact Hrun |].
  intros nc wm rap.
  assert (MobileNetV2.construct torch_nn globals nc wm rap
          = Err (NameError "MobileNetV2")) as Hc.
  { unfold MobileNetV2.construct. rewrite Hrun.
    by rewrite bool_decide_eq_false_2. }
  split; [exact Hc |]. split.
  - intros l. rewrite Hc. discriminate.
  - intros X Y x. unfold MobileNetV2.classify. by rewrite Hc.
Qed.

Lemma MobileNetV2_never_constructed_witness :
  ("module" ∉ Demo.torch_nn)
  ∧ ("Module" ∈ Demo.torch_nn)
  ∧ MobileNetV2.class_statement Demo.torch_nn ∅ = Err (AttributeError "module")
  ∧ MobileNetV2.construct Demo.torch_nn ∅ 10 1 true
    = Err (NameError "MobileNetV2").
Proof.
  assert ("module" ∉ Demo.torch_nn) as Hnn by compute_done.
  assert ("MobileNetV2" ∉ (∅ : gset string)) as Hg by compute_done.
  destruct (MobileNetV2_never_constructed Demo.torch_nn ∅ Hnn Hg)
    as (Hcls & _ & Hc).
  split; [exact Hnn |]. split; [compute_done |]. split; [exact Hcls |].
  by destruct (Hc 10 1%float true).
Defined.

(** * Further properties of the notebook's code *)

(** ** Shapes through a constructed block *)

Section ShapeFacts.
Context {F : Framework}.

Lemma ConvBlock_channels_init ic oc k wb ab o (cb : ConvBlock.t) c :
  ConvBlock.__init__ ic oc k wb ab o = Ok cb →
  ConvBlock_channels cb c = if c =? ic then Some oc else None.
Proof.
  intros H. apply ConvBlock_init_Ok in H as (Hc & Hb & _).
  unfold ConvBlock_channels, conv_channels, bn_channels. rewrite Hc, Hb. cbn.
  destruct (c =? ic); cbn; [by rewrite Z.eqb_refl | reflexivity].
Qed.

Lemma ConvBlock_size_init ic oc k wb ab o (cb : ConvBlock.t) n :
  ConvBlock.__init__ ic oc k wb ab o = Ok cb →
  ConvBlock.output_size cb n
  = conv_output_size n k (ConvBlock.stride o)
      (ConvBlock.resolve_padding k (ConvBlock.padding o)).
Proof.
  intros H. apply ConvBlock_init_Ok in H as (Hc & _ & _).
  unfold ConvBlock.output_size. by rewrite Hc.
Qed.

Lemma hidden_dim_without_expansion inp er x h :
  py_ne_1 er = true ∨ (∃ k, er = PInt k) →
  py_mul inp er = Ok x → py_round x = Ok h →
  py_ne_1 er = false → h = inp.
Proof.
  intros [Hne | [k ->]] Hx Hh Hne'; [congruence |].
  cbn in Hne', Hx. apply negb_false_iff, Z.eqb_eq in Hne' as ->.
  injection Hx as <-. cbn in Hh. injection Hh as <-. lia.
Qed.

Lemma channels_through_init inp oup stride er (b : InvertedResidual.t) c :
  InvertedResidual.__init__ inp oup stride er = Ok b →
  py_ne_1 er = true ∨ (∃ k, er = PInt k) →
  channels_through (InvertedResidual.conv b) c
  = if c =? inp then Some oup else None.
Proof.
  intros H Her. apply init_Ok in H as [_ H].
  apply build_Ok in H
    as (x & h & ls & dw & pw & bn & Hx & Hh & Hls & Hdw & Hpw & Hbn & ->).
  apply expansion_Ok in Hls.
  apply new_QuantConv2d_Ok in Hpw as [Hpw _].
  apply new_BatchNorm2d_Ok in Hbn.
  assert (∀ c', channels_through
                  [LConvBlock dw; LQuantConv2d pw; LBatchNorm2d bn] c'
                = if c' =? h then Some oup else None) as Htail.
  { intros c'. cbn. rewrite (ConvBlock_channels_init _ _ _ _ _ _ _ c' Hdw).
    destruct (c' =? h); [| reflexivity]. cbn.
    unfold conv_channels, bn_channels. rewrite Hpw, Hbn. cbn.
    rewrite Z.eqb_refl. cbn. by rewrite Z.eqb_refl. }
  pose proof (hidden_dim_without_expansion inp er x h Her Hx Hh) as Hh'.
  cbn [InvertedResidual.conv].
  destruct (py_ne_1 er) eqn:Hne.
  - destruct Hls as (ex & Hex & ->).
    cbn [app].
    cbn [channels_through layer_channels].
    rewrite (ConvBlock_channels_init _ _ _ _ _ _ _ c Hex).
    destruct (c =? inp); [| reflexivity].
    change (channels_through [LConvBlock dw; LQuantConv2d pw; LBatchNorm2d bn] h
            = Some oup).
    by rewrite Htail, Z.eqb_refl.
  - subst ls. cbn [app]. rewrite (Hh' eq_refl) in Htail. apply Htail.
Qed.

Lemma depthwise_size (m stride : Z) :
  conv_output_size m 3 stride ((3 - 1) / 2) = (m - 1) / stride + 1.
Proof.
  unfold conv_output_size. change ((3 - 1) / 2) with 1.
  f_equal. f_equal. lia.
Qed.

Lemma size_through_init inp oup stride er (b : InvertedResidual.t) n :
  InvertedResidual.__init__ inp oup stride er = Ok b →
  size_through (InvertedResidual.conv b) n = (n - 1) / stride + 1.
Proof.
  intros H. apply init_Ok in H as [_ H].
  apply build_Ok in H
    as (x & h & ls & dw & pw & bn & _ & _ & Hls & Hdw & Hpw & _ & ->).
  apply expansion_Ok in Hls.
  apply new_QuantConv2d_Ok in Hpw as [Hpw _].
  assert (∀ m, size_through
                 [LConvBlock dw; LQuantConv2d pw; LBatchNorm2d bn] m
               = (m - 1) / stride + 1) as Htail.
  { intros m. cbn [size_through layer_size].
    rewrite (ConvBlock_size_init _ _ _ _ _ _ _ m Hdw), Hpw.
    cbn [InvertedResidual.depthwise_opts ConvBlock.stride ConvBlock.padding
         ConvBlock.resolve_padding InvertedResidual.projection_kwargs
         QuantConv2d.kernel_size QuantConv2d.stride QuantConv2d.padding].
    rewrite depthwise_size. unfold conv_output_size.
    rewrite Z.div_1_r. lia. }
  cbn [InvertedResidual.conv].
  destruct (py_ne_1 er).
  - destruct Hls as (ex & Hex & ->).
    cbn [app].
    change (size_through [LConvBlock dw; LQuantConv2d pw; LBatchNorm2d bn]
              (ConvBlock.output_size ex n) = (n - 1) / stride + 1).
    rewrite Htail, (ConvBlock_size_init _ _ _ _ _ _ _ n Hex).
    cbn [ConvBlock.defaults ConvBlock.stride ConvBlock.padding
         ConvBlock.resolve_padding].
    by rewrite same_size_odd.
  - subst ls. apply Htail.
Qed.
End ShapeFacts.

(** Inside a constructed block the channels fit: the stage sequence accepts
    an input of exactly [inp] channels, each stage receives the channels the
    stage before it returns, and the sequence returns [oup] channels.  This
    needs [expand_ratio] to be an [int] or different from 1, so that the
    block without expansion has [hidden_dim = inp]. *)
Theorem channel_continuity {F : Framework} (inp oup stride : Z)
    (expand_ratio : pynum) (b : InvertedResidual.t) :
  InvertedResidual.__init__ inp oup stride expand_ratio = Ok b →
  py_ne_1 expand_ratio = true ∨ (∃ k, expand_ratio = PInt k) →
  channels_through (InvertedResidual.conv b) inp = Some oup
  ∧ ∀ c, c ≠ inp → channels_through (InvertedResidual.conv b) c = None.
Proof.
  intros H Her. split.
  - rewrite (channels_through_init _ _ _ _ _ inp H Her). by rewrite Z.eqb_refl.
  - intros c Hc. rewrite (channels_through_init _ _ _ _ _ c H Her).
    by apply Z.eqb_neq in Hc as ->.
Qed.

Lemma channel_continuity_witness :
  ∃ b : @InvertedResidual.t Demo.framework,
    InvertedResidual.__init__ 16 24 2 (PFloat 0.5) = Ok b
    ∧ channels_through (InvertedResidual.conv b) 16 = Some 24
    ∧ channels_through (InvertedResidual.conv b) 8 = None.
Proof.
  destruct (InvertedResidual.__init__ (F := Demo.framework) 16 24 2 (PFloat 0.5))
    as [b|e] eqn:E; [| by vm_compute in E].
  destruct (channel_continuity 16 24 2 (PFloat 0.5) b E (or_introl eq_refl))
    as [Hin Hout].
  exists b. split; [reflexivity |]. split; [exact Hin |].
  apply Hout. lia.
Defined.

(** The stage sequence of a constructed block maps a spatial size [n] to
    [n] at stride 1 and to [(n + 1) // 2] at stride 2: the pointwise stages
    keep the size and the depthwise stage, kernel 3 with padding 1, divides
    it by the stride. *)
Theorem block_spatial_size {F : Framework} (inp oup stride : Z)
    (expand_ratio : pynum) (b : InvertedResidual.t) (n : Z) :
  InvertedResidual.__init__ inp oup stride expand_ratio = Ok b →
  (stride = 1 ∧ size_through (InvertedResidual.conv b) n = n)
  ∨ (stride = 2 ∧ size_through (InvertedResidual.conv b) n = (n + 1) / 2).
Proof.
  intros H. rewrite (size_through_init _ _ _ _ _ n H).
  apply init_Ok in H as [[-> | ->] _]; [left | right]; split; try reflexivity.
  - rewrite Z.div_1_r. lia.
  - replace (n + 1) with (n - 1 + 1 * 2) by lia.
    rewrite Z.div_add by lia. reflexivity.
Qed.

Lemma block_spatial_size_witness :
  ∃ b : @InvertedResidual.t Demo.framework,
    InvertedResidual.__init__ 16 24 2 (PInt 6) = Ok b
    ∧ size_through (InvertedResidual.conv b) 112 = 56
    ∧ size_through (InvertedResidual.conv b) 7 = 4.
Proof.
  destruct (InvertedResidual.__init__ (F := Demo.framework) 16 24 2 (PInt 6))
    as [b|e] eqn:E; [| by vm_compute in E].
  exists b. split; [reflexivity |].
  split.
  - destruct (block_spatial_size 16 24 2 (PInt 6) b 112 E) as [[? _] | [_ ->]];
      [lia | reflexivity].
  - destruct (block_spatial_size 16 24 2 (PInt 6) b 7 E) as [[? _] | [_ ->]];
      [lia | reflexivity].
Defined.

(** When a constructed block adds the residual, the sum is between tensors
    of one shape: the stage sequence returns as many channels as it is given
    and keeps the spatial size. *)
Theorem residual_add_shape {F : Framework} (inp oup stride : Z)
    (expand_ratio : pynum) (b : InvertedResidual.t) :
  InvertedResidual.__init__ inp oup stride expand_ratio = Ok b →
  py_ne_1 expand_ratio = true ∨ (∃ k, expand_ratio = PInt k) →
  InvertedResidual.use_res_connect b = true →
  channels_through (InvertedResidual.conv b) inp = Some inp
  ∧ ∀ n, size_through (InvertedResidual.conv b) n = n.
Proof.
  intros H Her Hres.
  pose proof (channels_through_init _ _ _ _ _ inp H Her) as Hch.
  pose proof (λ n, size_through_init _ _ _ _ _ n H) as Hsz.
  apply init_Ok in H as [_ H].
  apply build_Ok in H as (x & h & ls & dw & pw & bn & _ & _ & _ & _ & _ & _ & ->).
  cbn [InvertedResidual.use_res_connect] in Hres.
  apply andb_true_iff in Hres as [Hs Hio].
  apply Z.eqb_eq in Hs as ->. apply Z.eqb_eq in Hio as <-.
  split.
  - rewrite Hch. by rewrite Z.eqb_refl.
  - intros n. rewrite Hsz, Z.div_1_r. lia.
Qed.

Lemma residual_add_shape_witness :
  ∃ b : @InvertedResidual.t Demo.framework,
    InvertedResidual.__init__ 32 32 1 (PInt 6) = Ok b
    ∧ InvertedResidual.use_res_connect b = true
    ∧ channels_through (InvertedResidual.conv b) 32 = Some 32
    ∧ size_through (InvertedResidual.conv b) 56 = 56.
Proof.
  destruct (InvertedResidual.__init__ (F := Demo.framework) 32 32 1 (PInt 6))
    as [b|e] eqn:E; [| by vm_compute in E].
  assert (InvertedResidual.use_res_connect b = true) as Hres.
  { vm_compute in E. by injection E as <-. }
  destruct (residual_add_shape 32 32 1 (PInt 6) b E
              (or_intror (ex_intro _ 6 eq_refl)) Hres) as [Hch Hsz].
  exists b. split; [reflexivity |]. split; [exact Hres |].
  split; [exact Hch | apply Hsz].
Defined.

(** ** What an evaluation returns *)

Section OutputKinds.
Context {F : Framework} (K : Kernels result).

Lemma call_BatchNorm2d_plain bn x y :
  call_BatchNorm2d bn x = Ok y → ∃ t, y = Plain t.
Proof.
  unfold call_BatchNorm2d. intros H. inv_bind H. injection H as <-. eauto.
Qed.

Lemma Sequential_forward_app_Ok l1 l2 :
  ∀ x y, Sequential_forward (l1 ++ l2) x = Ok y →
         ∃ z, Sequential_forward l1 x = Ok z ∧ Sequential_forward l2 z = Ok y.
Proof.
  induction l1 as [| l l1 IH]; intros x y H; cbn in *.
  - exists x. split; [reflexivity | exact H].
  - apply bind_Ok in H as (z & Hz & H). rewrite Hz. cbn. by apply IH.
Qed.
End OutputKinds.

(** A constructed convolution block that returns, returns a quantized
    tensor: the value together with its scale, whatever the kernels are. *)
Theorem ConvBlock_returns_quant_tensor {F : Framework} (K : Kernels result)
    (in_channels out_channels kernel_size : Z)
    (weight_bit_width act_bit_width : option Z) (o : ConvBlock.opts)
    (cb : ConvBlock.t) (x y : value) :
  ConvBlock.__init__ in_channels out_channels kernel_size weight_bit_width
    act_bit_width o = Ok cb →
  ConvBlock.forward cb x = Ok y →
  ∃ v scale, y = QuantTensor v scale.
Proof.
  intros Hcb H. apply ConvBlock_init_Ok in Hcb as (_ & _ & Ha).
  unfold ConvBlock.forward in H. inv_bind H. injection H as <-.
  unfold call_QuantReLU in E1. rewrite Ha in E1. inv_bind E1.
  injection E1 as <-. eauto.
Qed.

Lemma ConvBlock_returns_quant_tensor_witness :
  ∃ (cb : @ConvBlock.t Demo.framework) v scale,
    ConvBlock.__init__ 3 32 3 (Some 8) (Some 8) ConvBlock.defaults = Ok cb
    ∧ ConvBlock.forward (K := Demo.kernels) cb (@Plain Demo.framework (-5))
      = Ok (QuantTensor v scale).
Proof.
  destruct (ConvBlock.__init__ (F := Demo.framework) 3 32 3 (Some 8) (Some 8)
              ConvBlock.defaults) as [cb|e] eqn:E; [| by vm_compute in E].
  destruct (ConvBlock.forward (K := Demo.kernels) cb (@Plain Demo.framework (-5)))
    as [y|e] eqn:Ey.
  - destruct (ConvBlock_returns_quant_tensor Demo.kernels 3 32 3 (Some 8)
                (Some 8) ConvBlock.defaults cb _ y E Ey) as (v & s & ->).
    exists cb, v, s. split; [reflexivity | exact Ey].
  - vm_compute in E. injection E as <-. by vm_compute in Ey.
Defined.

(** The stage sequence of a constructed inverted residual block ends in the
    batch normalization, so when it returns, it returns a plain tensor, never
    a quantized one; a block without the residual returns that tensor. *)
Theorem conv_path_returns_plain_tensor {F : Framework} (K : Kernels result)
    (inp oup stride : Z) (expand_ratio : pynum) (b : InvertedResidual.t)
    (x y : value) :
  InvertedResidual.__init__ inp oup stride expand_ratio = Ok b →
  (Sequential_forward (InvertedResidual.conv b) x = Ok y → ∃ t, y = Plain t)
  ∧ (InvertedResidual.use_res_connect b = false →
     InvertedResidual.forward b x = Ok y → ∃ t, y = Plain t).
Proof.
  intros H. apply init_Ok in H as [_ H].
  apply build_Ok in H as (x0 & h & ls & dw & pw & bn & _ & _ & _ & _ & _ & _ & ->).
  cbn [InvertedResidual.conv InvertedResidual.use_res_connect].
  assert (Sequential_forward
            (ls ++ [LConvBlock dw; LQuantConv2d pw; LBatchNorm2d bn]) x = Ok y →
          ∃ t, y = Plain t) as Hseq.
  { intros Hy. apply Sequential_forward_app_Ok in Hy as (z & _ & Hy).
    cbn in Hy. inv_bind Hy. injection Hy as <-.
    by apply call_BatchNorm2d_plain in E1. }
  split; [exact Hseq |].
  intros Hres. unfold InvertedResidual.forward.
  cbn [InvertedResidual.conv InvertedResidual.use_res_connect].
  rewrite Hres. exact Hseq.
Qed.

Lemma conv_path_returns_plain_tensor_witness :
  ∃ (b : @InvertedResidual.t Demo.framework) t,
    InvertedResidual.__init__ 16 24 2 (PInt 6) = Ok b
    ∧ Sequential_forward (K := Demo.kernels) (InvertedResidual.conv b)
        (@QuantTensor Demo.framework 9 1) = Ok (Plain t).
Proof.
  destruct (InvertedResidual.__init__ (F := Demo.framework) 16 24 2 (PInt 6))
    as [b|e] eqn:E; [| by vm_compute in E].
  destruct (Sequential_forward (K := Demo.kernels) (InvertedResidual.conv b)
              (@QuantTensor Demo.framework 9 1)) as [y|e] eqn:Ey.
  - destruct (conv_path_returns_plain_tensor Demo.kernels 16 24 2 (PInt 6) b
                (@QuantTensor Demo.framework 9 1) y E) as [Hseq _].
    destruct (Hseq Ey) as (t & ->).
    exists b, t. split; [reflexivity | exact Ey].
  - vm_compute in E. injection E as <-. by vm_compute in Ey.
Defined.

(** ** No addition without the residual *)

Section NoAddition.
Context {F : Framework} {M : Type → Type} {HR : MRet M} {HB : MBind M}
        (K : Kernels M) (add : value → value → M value).

Lemma call_layer_without_add l :
  call_layer (K := with_tensor_add K add) l = call_layer (K := K) l.
Proof. destruct l; reflexivity. Qed.

Lemma Sequential_forward_without_add layers :
  Sequential_forward (K := with_tensor_add K add) layers
  = Sequential_forward (K := K) layers.
Proof.
  induction layers as [| l rest IH]; [reflexivity |].
  change ((λ x, call_layer (K := with_tensor_add K add) l x
                ≫= Sequential_forward (K := with_tensor_add K add) rest)
          = (λ x, call_layer (K := K) l x ≫= Sequential_forward (K := K) rest)).
  by rewrite IH, call_layer_without_add.
Qed.
End NoAddition.

(** A block constructed with stride 2, or with different channel counts in
    and out, never adds: its evaluation is the same whatever the addition
    of tensors does. *)
Theorem no_addition_without_residual {F : Framework} {M : Type → Type}
    {HR : MRet M} {HB : MBind M} (K : Kernels M)
    (add : value → value → M value)
    (inp oup stride : Z) (expand_ratio : pynum) (b : InvertedResidual.t) :
  InvertedResidual.__init__ inp oup stride expand_ratio = Ok b →
  stride = 2 ∨ inp ≠ oup →
  ∀ x, InvertedResidual.forward (K := with_tensor_add K add) b x
       = InvertedResidual.forward (K := K) b x.
Proof.
  intros H Hno x. apply init_Ok in H as [_ H].
  apply build_Ok in H as (x0 & h & ls & dw & pw & bn & _ & _ & _ & _ & _ & _ & ->).
  unfold InvertedResidual.forward.
  cbn [InvertedResidual.use_res_connect InvertedResidual.conv].
  assert ((stride =? 1) && (inp =? oup) = false) as ->.
  { apply andb_false_iff. destruct Hno as [-> | Hne]; [by left | right].
    by apply Z.eqb_neq. }
  by rewrite Sequential_forward_without_add.
Qed.

Lemma no_addition_without_residual_witness :
  ∃ b : @InvertedResidual.t Demo.framework,
    InvertedResidual.__init__ 16 24 2 (PInt 6) = Ok b
    ∧ InvertedResidual.forward
        (K := with_tensor_add Demo.kernels (λ _ _, Err (RuntimeError "add")))
        b (@Plain Demo.framework 9)
      = InvertedResidual.forward (K := Demo.kernels) b (@Plain Demo.framework 9).
Proof.
  destruct (InvertedResidual.__init__ (F := Demo.framework) 16 24 2 (PInt 6))
    as [b|e] eqn:E; [| by vm_compute in E].
  exists b. split; [reflexivity |].
  apply (no_addition_without_residual Demo.kernels _ 16 24 2 (PInt 6) b E).
  by left.
Defined.

(** ** Expansion ratios that are not numbers *)

Lemma round_of_product_with_nan (x : float) :
  py_round (PFloat (x * nan)) = Err ValueError.
Proof.
  unfold py_round. rewrite mul_spec.
  replace (Prim2SF nan) with S754_nan by reflexivity.
  unfold SF64mul, SFmul. by destruct (Prim2SF x).
Qed.

Lemma round_of_product_with_infinity (x f : float) :
  f = infinity ∨ f = neg_infinity →
  py_round (PFloat (x * f)) = Err ValueError
  ∨ py_round (PFloat (x * f)) = Err OverflowError.
Proof.
  intros Hf. unfold py_round. rewrite mul_spec.
  assert (∃ s, Prim2SF f = S754_infinity s) as [s ->].
  { destruct Hf as [-> | ->]; eexists; reflexivity. }
  unfold SF64mul, SFmul. destruct (Prim2SF x); auto.
Qed.

(** A NaN or infinite [expand_ratio] never gives a block: once the stride
    assertion has passed, [int(round(inp * expand_ratio))] raises ValueError
    or OverflowError before any layer is built, for every library. *)
Theorem non_finite_ratio_rejected {F : Framework} (inp oup stride : Z)
    (f : float) :
  f = nan ∨ f = infinity ∨ f = neg_infinity →
  stride = 1 ∨ stride = 2 →
  InvertedResidual.__init__ inp oup stride (PFloat f) = Err ValueError
  ∨ InvertedResidual.__init__ inp oup stride (PFloat f) = Err OverflowError.
Proof.
  intros Hf Hs. unfold InvertedResidual.__init__, InvertedResidual.build.
  apply py_in_1_2_spec in Hs as ->. cbn [py_assert mbind result_bind].
  unfold py_mul. destruct (float_of_int inp) as [x | e] eqn:Hx.
  - cbn [mbind result_bind].
    destruct Hf as [-> | Hf].
    + left. by rewrite round_of_product_with_nan.
    + destruct (round_of_product_with_infinity x f Hf) as [-> | ->]; auto.
  - right. unfold float_of_int in Hx.
    destruct (is_infinity _); [| discriminate]. by injection Hx as <-.
Qed.

Lemma non_finite_ratio_rejected_witness :
  InvertedResidual.__init__ (F := Demo.framework) 16 16 1 (PFloat nan)
  = Err ValueError
  ∨ InvertedResidual.__init__ (F := Demo.framework) 16 16 1 (PFloat nan)
    = Err OverflowError.
Proof.
  apply (non_finite_ratio_rejected 16 16 1 nan); [by left | by left].
Defined.
